(** * SpaceVecAlg: the spatial motion vector [sva::MotionVec<T>]

    A shallow embedding of [src/MotionVec.h].  The class template is
    generic in its scalar type [T]; here [T] is any type carrying the
    operators the template uses ([ScalarOps]).  Two instances are given:
    the integers, whose arithmetic is exact ([ExactScalar]: a commutative
    ring whose [==] decides equality), and binary64, the type [double],
    with the rounding, the infinities and the NaN of IEEE 754.  A law is
    only assumed where a statement names it. *)

From Stdlib Require Import ZArith Bool Ring Floats.

(** ** The scalar type [T] *)

(** The operators [MotionVec<T>] asks of [T]. *)
Class ScalarOps (T : Type) : Type := {
  Tzero : T;
  Tone  : T;
  Tadd  : T -> T -> T;
  Tmul  : T -> T -> T;
  Tsub  : T -> T -> T;
  Topp  : T -> T;
  Teqb  : T -> T -> bool
}.

(** Exact arithmetic: the operators form a commutative ring and [==] is
    equality. *)
Class ExactScalar (T : Type) {ops : ScalarOps T} : Prop := {
  scalar_ring : ring_theory Tzero Tone Tadd Tmul Tsub Topp (@eq T);
  Teqb_eq : forall a b : T, Teqb a b = true <-> a = b
}.

(** [T]'s [!=] is the negation of its [==]. *)
Definition Tneb {T} {ops : ScalarOps T} (a b : T) : bool := negb (Teqb a b).

Declare Scope scalar_scope.
Delimit Scope scalar_scope with T.
Notation "0" := Tzero : scalar_scope.
Notation "1" := Tone : scalar_scope.
Infix "+" := Tadd : scalar_scope.
Infix "*" := Tmul : scalar_scope.
Infix "-" := Tsub : scalar_scope.
Notation "- x" := (Topp x) : scalar_scope.

#[export] Instance Z_ops : ScalarOps Z := {|
  Tzero := 0%Z; Tone := 1%Z;
  Tadd := Z.add; Tmul := Z.mul; Tsub := Z.sub; Topp := Z.opp;
  Teqb := Z.eqb
|}.

(** [double]: the binary64 numbers with their IEEE operations; [==] is
    the IEEE comparison, false on a NaN and true on zeros of either
    sign. *)
#[export] Instance binary64_ops : ScalarOps float := {|
  Tzero := 0%float; Tone := 1%float;
  Tadd := PrimFloat.add; Tmul := PrimFloat.mul; Tsub := PrimFloat.sub;
  Topp := PrimFloat.opp;
  Teqb := PrimFloat.eqb
|}.

(** Two IEEE numbers, in the specification's form, that are the same or
    are two zeros of any signs: what [==] cannot tell apart, NaN aside. *)
Definition zsim (a b : spec_float) : Prop :=
  a = b \/ (exists s t, a = S754_zero s /\ b = S754_zero t).

(** ** The fragment of Eigen that the header uses

    [Vector3<T>] and [Vector6<T>] are fixed-size columns; a record with
    one field per coefficient. *)
Module Eigen.

Record Vector3 (T : Type) : Type := mkVector3 {
  x : T; y : T; z : T
}.

Record Vector6 (T : Type) : Type := mkVector6 {
  c0 : T; c1 : T; c2 : T; c3 : T; c4 : T; c5 : T
}.

Arguments mkVector3 {T} _ _ _.
Arguments mkVector6 {T} _ _ _ _ _ _.
Arguments x {T} _.
Arguments y {T} _.
Arguments z {T} _.
Arguments c0 {T} _.
Arguments c1 {T} _.
Arguments c2 {T} _.
Arguments c3 {T} _.
Arguments c4 {T} _.
Arguments c5 {T} _.

Section Coefficients.
Context {T : Type} {ops : ScalarOps T}.
Local Open Scope scalar_scope.

(** [v.head<3>()] and [v.tail<3>()] *)
Definition head3 (v : Vector6 T) : Vector3 T :=
  mkVector3 (c0 v) (c1 v) (c2 v).
Definition tail3 (v : Vector6 T) : Vector3 T :=
  mkVector3 (c3 v) (c4 v) (c5 v).

(** [(Vector6() << a, b).finished()]: the comma initializer fills the
    coefficients in order, first those of [a], then those of [b]. *)
Definition comma33 (a b : Vector3 T) : Vector6 T :=
  mkVector6 (x a) (y a) (z a) (x b) (y b) (z b).

Definition Vector3_Zero : Vector3 T := mkVector3 0 0 0.
Definition Vector6_Zero : Vector6 T := mkVector6 0 0 0 0 0 0.

(** coefficient-wise [a + b], [a - b], [-a], [s * a] *)
Definition add3 (a b : Vector3 T) : Vector3 T :=
  mkVector3 (x a + x b) (y a + y b) (z a + z b).
Definition add6 (a b : Vector6 T) : Vector6 T :=
  mkVector6 (c0 a + c0 b) (c1 a + c1 b) (c2 a + c2 b)
            (c3 a + c3 b) (c4 a + c4 b) (c5 a + c5 b).
Definition sub6 (a b : Vector6 T) : Vector6 T :=
  mkVector6 (c0 a - c0 b) (c1 a - c1 b) (c2 a - c2 b)
            (c3 a - c3 b) (c4 a - c4 b) (c5 a - c5 b).
Definition opp6 (a : Vector6 T) : Vector6 T :=
  mkVector6 (- c0 a) (- c1 a) (- c2 a) (- c3 a) (- c4 a) (- c5 a).
Definition scale6 (s : T) (a : Vector6 T) : Vector6 T :=
  mkVector6 (s * c0 a) (s * c1 a) (s * c2 a)
            (s * c3 a) (s * c4 a) (s * c5 a).

(** [a.cross(b)] and [a.dot(b)] on 3-vectors *)
Definition cross3 (a b : Vector3 T) : Vector3 T :=
  mkVector3 (y a * z b - z a * y b)
            (z a * x b - x a * z b)
            (x a * y b - y a * x b).
Definition dot3 (a b : Vector3 T) : T :=
  x a * x b + y a * y b + z a * z b.

(** [a == b] is [a.cwiseEqual(b).all()], [a != b] is
    [a.cwiseNotEqual(b).any()]. *)
Definition eqb6 (a b : Vector6 T) : bool :=
  Teqb (c0 a) (c0 b) && Teqb (c1 a) (c1 b) && Teqb (c2 a) (c2 b) &&
  Teqb (c3 a) (c3 b) && Teqb (c4 a) (c4 b) && Teqb (c5 a) (c5 b).
Definition neb6 (a b : Vector6 T) : bool :=
  Tneb (c0 a) (c0 b) || Tneb (c1 a) (c1 b) || Tneb (c2 a) (c2 b) ||
  Tneb (c3 a) (c3 b) || Tneb (c4 a) (c4 b) || Tneb (c5 a) (c5 b).

(** the same operations on 3-vectors, for the two halves *)
Definition sub3 (a b : Vector3 T) : Vector3 T :=
  mkVector3 (x a - x b) (y a - y b) (z a - z b).
Definition opp3 (a : Vector3 T) : Vector3 T :=
  mkVector3 (- x a) (- y a) (- z a).
Definition scale3 (s : T) (a : Vector3 T) : Vector3 T :=
  mkVector3 (s * x a) (s * y a) (s * z a).
Definition eqb3 (a b : Vector3 T) : bool :=
  Teqb (x a) (x b) && Teqb (y a) (y b) && Teqb (z a) (z b).
Definition neb3 (a b : Vector3 T) : bool :=
  Tneb (x a) (x b) || Tneb (y a) (y b) || Tneb (z a) (z b).

End Coefficients.

Section Casting.
Context {T T2 : Type}.

(** [v.cast<T2>()] converts every coefficient; [conv] is the conversion
    of a [T] to a [T2]. *)
Definition cast3 (conv : T -> T2) (v : Vector3 T) : Vector3 T2 :=
  mkVector3 (conv (x v)) (conv (y v)) (conv (z v)).
Definition cast6 (conv : T -> T2) (v : Vector6 T) : Vector6 T2 :=
  mkVector6 (conv (c0 v)) (conv (c1 v)) (conv (c2 v))
            (conv (c3 v)) (conv (c4 v)) (conv (c5 v)).

End Casting.

(** A property of each of the six coefficients. *)
Definition Forall6 {T : Type} (P : T -> Prop) (v : Vector6 T) : Prop :=
  P (c0 v) /\ P (c1 v) /\ P (c2 v) /\ P (c3 v) /\ P (c4 v) /\ P (c5 v).

(** Some coefficient of a [double] vector is a NaN. *)
Definition has_nan (v : Vector6 float) : bool :=
  is_nan (c0 v) || is_nan (c1 v) || is_nan (c2 v) ||
  is_nan (c3 v) || is_nan (c4 v) || is_nan (c5 v).

(** A [double] that is +0 or a NaN. *)
Definition zero_or_nan (c : float) : Prop := c = 0%float \/ c = nan.

End Eigen.

(** ** The classes of the library *)
Module sva.
Import Eigen.

(** [class MotionVec]: one private member, the 6-vector [mv_], angular
    motion in its head and linear motion in its tail. *)
Record MotionVec (T : Type) : Type := mkMotionVec {
  mv_ : Vector6 T
}.

(** Modelled from the spec: the class [ForceVec<T>], declared outside
    this header.  The dual 6-vector, moment in the head and force in the
    tail, built from its two halves and read back by [moment] and
    [force]. *)
Record ForceVec (T : Type) : Type := mkForceVec {
  fv_ : Vector6 T
}.

Arguments mkMotionVec {T} _.
Arguments mkForceVec {T} _.
Arguments mv_ {T} _.
Arguments fv_ {T} _.

Section Members.
Context {T : Type} {ops : ScalarOps T}.
Local Open Scope scalar_scope.

(** [MotionVec(): mv_() {}] has no counterpart here: it leaves [mv_] to
    the default constructor of Eigen's fixed-size vector, and the header
    gives the six coefficients no value of its own. *)

(** [MotionVec(const vector6_t& vec): mv_(vec) {}] *)
Definition MotionVec_of_vector (vec : Vector6 T) : MotionVec T :=
  mkMotionVec vec.

(** [MotionVec(const vector3_t& angular, const vector3_t& linear)] *)
Definition MotionVec_of_parts (angular linear : Vector3 T) : MotionVec T :=
  mkMotionVec (comma33 angular linear).

Definition angular (m : MotionVec T) : Vector3 T := head3 (mv_ m).
Definition linear (m : MotionVec T) : Vector3 T := tail3 (mv_ m).
Definition vector (m : MotionVec T) : Vector6 T := mv_ m.

(** The motion vector with six zero coefficients. *)
Definition MotionVec_Zero : MotionVec T := MotionVec_of_vector Vector6_Zero.

(** Modelled from the spec: construction and accessors of [ForceVec]. *)
Definition ForceVec_of_parts (moment force : Vector3 T) : ForceVec T :=
  mkForceVec (comma33 moment force).
Definition moment (f : ForceVec T) : Vector3 T := head3 (fv_ f).
Definition force (f : ForceVec T) : Vector3 T := tail3 (fv_ f).

(** [operator+], binary and unary [operator-] *)
Definition plus (m mv : MotionVec T) : MotionVec T :=
  MotionVec_of_vector (add6 (mv_ m) (mv_ mv)).
Definition minus (m mv : MotionVec T) : MotionVec T :=
  MotionVec_of_vector (sub6 (mv_ m) (mv_ mv)).
Definition neg (m : MotionVec T) : MotionVec T :=
  MotionVec_of_vector (opp6 (mv_ m)).

(** [template<typename T2> MotionVec<T> operator*(T2 scalar) const]
    returns [MotionVec<T>(scalar * mv_)].  Eigen multiplies a [T] vector
    by a [T] scalar, so the [T2] argument is first converted; [to_T] is
    that conversion. *)
Definition mul_scalar {T2 : Type} (to_T : T2 -> T)
  (m : MotionVec T) (scalar : T2) : MotionVec T :=
  MotionVec_of_vector (scale6 (to_T scalar) (mv_ m)).

(** The free [operator*(T2 scalar, const MotionVec<T>& mv)] returns
    [mv*scalar]. *)
Definition scalar_mul {T2 : Type} (to_T : T2 -> T)
  (scalar : T2) (mv : MotionVec T) : MotionVec T :=
  mul_scalar to_T mv scalar.

(** Modelled from the spec: the body of [cross], of which the header
    only has the declaration.  Angular part [aw x bw], linear part
    [aw x bv + av x bw]. *)
Definition cross (m mv2 : MotionVec T) : MotionVec T :=
  MotionVec_of_parts
    (cross3 (angular m) (angular mv2))
    (add3 (cross3 (angular m) (linear mv2))
          (cross3 (linear m) (angular mv2))).

(** Modelled from the spec: the body of [crossDual], of which the header
    only has the declaration.  Moment part [aw x fm + av x ff], force
    part [aw x ff]. *)
Definition crossDual (m : MotionVec T) (fv2 : ForceVec T) : ForceVec T :=
  ForceVec_of_parts
    (add3 (cross3 (angular m) (moment fv2))
          (cross3 (linear m) (force fv2)))
    (cross3 (angular m) (force fv2)).

(** Modelled from the spec: the body of [dot], of which the header only
    has the declaration (with result type [double], which is [T] for
    [MotionVec<double>]).  The pairing [aw . fm + av . ff]. *)
Definition dot (m : MotionVec T) (fv2 : ForceVec T) : T :=
  dot3 (angular m) (moment fv2) + dot3 (linear m) (force fv2).

(** [operator==] and [operator!=] *)
Definition eqb (m mv : MotionVec T) : bool := eqb6 (mv_ m) (mv_ mv).
Definition neb (m mv : MotionVec T) : bool := neb6 (mv_ m) (mv_ mv).

End Members.

(** [template<typename T2> MotionVec<T2> cast() const] returns
    [MotionVec<T2>(mv_.cast<T2>())]. *)
Definition cast {T T2 : Type} (conv : T -> T2) (m : MotionVec T)
  : MotionVec T2 :=
  MotionVec_of_vector (cast6 conv (mv_ m)).

End sva.

(** ** Sample integer vectors

    [a0] and [b0] are the two operands of the worked cross product of the
    specification, [v0] is (1,2,3,4,5,6). *)
Module Samples.
Import Eigen sva.
Local Open Scope Z_scope.

Definition a0 : MotionVec Z :=
  MotionVec_of_parts (mkVector3 0 0 1) (mkVector3 1 0 0).
Definition b0 : MotionVec Z :=
  MotionVec_of_parts (mkVector3 0 1 0) (mkVector3 0 0 1).
Definition v0 : MotionVec Z :=
  MotionVec_of_vector (mkVector6 1 2 3 4 5 6).
Definition f0 : ForceVec Z :=
  ForceVec_of_parts (mkVector3 2 (-1) 3) (mkVector3 5 7 (-4)).

(** A vector of naturals, to be cast to the integers and back. *)
Definition n0 : MotionVec nat :=
  MotionVec_of_vector (mkVector6 1 2 3 4 5 6)%nat.

(** The vector (1,2,3,4,5,6) again, from its two halves. *)
Definition v0' : MotionVec Z :=
  MotionVec_of_parts (mkVector3 1 2 3) (mkVector3 4 5 6).
Definition n0' : MotionVec nat :=
  MotionVec_of_parts (mkVector3 1 2 3)%nat (mkVector3 4 5 6)%nat.

(** [double] vectors.  [d1] is ((0.1,0.2,0.3),(0.4,0.5,0.7)); [big] has
    three coefficients near 1e200, whose products overflow; [vnan] has a
    NaN coefficient; [da], [db], [df] have coefficients 0.1, 0.1 and
    0.3. *)
Definition d1 : MotionVec float :=
  MotionVec_of_parts
    (mkVector3 0x1.999999999999ap-4 0x1.999999999999ap-3
               0x1.3333333333333p-2)%float
    (mkVector3 0x1.999999999999ap-2 0x1p-1 0x1.6666666666666p-1)%float.
Definition big : MotionVec float :=
  MotionVec_of_parts
    (mkVector3 0x1.4e718d7d7625ap+664 0x1.4e718d7d7625ap+664
               0x1.4e718d7d7625ap+664)%float
    (mkVector3 0 0 0)%float.
Definition vnan : MotionVec float :=
  MotionVec_of_vector (mkVector6 nan 0 0 0 0 0)%float.
Definition da : MotionVec float :=
  MotionVec_of_parts (mkVector3 0 0 0x1.999999999999ap-4)%float
                     (mkVector3 0 0 0)%float.
Definition db : MotionVec float :=
  MotionVec_of_parts (mkVector3 0 0x1.999999999999ap-4 0)%float
                     (mkVector3 0 0 0)%float.
Definition df : ForceVec float :=
  ForceVec_of_parts (mkVector3 0x1.3333333333333p-2 0 0)%float
                    (mkVector3 0 0 0)%float.

End Samples.

(** ** Properties *)

Import Eigen sva.

(** The integers are an exact scalar type. *)
#[export] Instance Z_exact : ExactScalar Z.
Proof.
  split.
  - exact Zth.
  - exact Z.eqb_eq.
Qed.

(** *** Facts that hold for any scalar type *)
Section AnyScalar.
Context {T : Type} {ops : ScalarOps T}.
Local Open Scope scalar_scope.

Lemma head3_comma33 (a b : Vector3 T) : head3 (comma33 a b) = a.
Proof. destruct a; reflexivity. Qed.

Lemma tail3_comma33 (a b : Vector3 T) : tail3 (comma33 a b) = b.
Proof. destruct b; reflexivity. Qed.

Lemma comma33_head3_tail3 (v : Vector6 T) : comma33 (head3 v) (tail3 v) = v.
Proof. destruct v; reflexivity. Qed.

Lemma angular_of_parts (a l : Vector3 T) : angular (MotionVec_of_parts a l) = a.
Proof. apply head3_comma33. Qed.

Lemma linear_of_parts (a l : Vector3 T) : linear (MotionVec_of_parts a l) = l.
Proof. apply tail3_comma33. Qed.

Lemma moment_of_parts (m f : Vector3 T) : moment (ForceVec_of_parts m f) = m.
Proof. apply head3_comma33. Qed.

Lemma force_of_parts (m f : Vector3 T) : force (ForceVec_of_parts m f) = f.
Proof. apply tail3_comma33. Qed.

Lemma angular_cross (a b : MotionVec T) :
  angular (cross a b) = cross3 (angular a) (angular b).
Proof. apply angular_of_parts. Qed.

Lemma linear_cross (a b : MotionVec T) :
  linear (cross a b) =
    add3 (cross3 (angular a) (linear b)) (cross3 (linear a) (angular b)).
Proof. apply linear_of_parts. Qed.

Lemma moment_crossDual (a : MotionVec T) (f : ForceVec T) :
  moment (crossDual a f) =
    add3 (cross3 (angular a) (moment f)) (cross3 (linear a) (force f)).
Proof. apply moment_of_parts. Qed.

Lemma force_crossDual (a : MotionVec T) (f : ForceVec T) :
  force (crossDual a f) = cross3 (angular a) (force f).
Proof. apply force_of_parts. Qed.

(** C8: a motion vector built from an angular and a linear 3-vector
    stores the angular one in coefficients 0-2 and the linear one in
    coefficients 3-5, and [angular()] and [linear()] give the two
    arguments back. *)
Theorem MotionVec_parts_roundtrip (a l : Vector3 T) :
  angular (MotionVec_of_parts a l) = a /\
  linear (MotionVec_of_parts a l) = l /\
  vector (MotionVec_of_parts a l) =
    mkVector6 (x a) (y a) (z a) (x l) (y l) (z l).
Proof.
  split; [apply angular_of_parts | split; [apply linear_of_parts | reflexivity]].
Qed.

(** C9: [k * v] and [v * k] are the same motion vector, whose six
    coefficients are those of [v], each multiplied by [k] (converted to
    [T]). *)
Theorem scalar_mul_both_orders {T2 : Type} (to_T : T2 -> T)
    (k : T2) (v : MotionVec T) :
  scalar_mul to_T k v = mul_scalar to_T v k /\
  vector (mul_scalar to_T v k) =
    mkVector6 (to_T k * c0 (vector v)) (to_T k * c1 (vector v))
              (to_T k * c2 (vector v)) (to_T k * c3 (vector v))
              (to_T k * c4 (vector v)) (to_T k * c5 (vector v)).
Proof. split; reflexivity. Qed.

(** C2: the moment of [a.crossDual(f)] is [aw x fm + av x ff] and its
    force is [aw x ff]. *)
Theorem crossDual_parts (a : MotionVec T) (f : ForceVec T) :
  moment (crossDual a f) =
    add3 (cross3 (angular a) (moment f)) (cross3 (linear a) (force f)) /\
  force (crossDual a f) = cross3 (angular a) (force f).
Proof. split; [apply moment_crossDual | apply force_crossDual]. Qed.

(** C4: [v.dot(f)] is a scalar, the dot product of the angular part with
    the moment plus the dot product of the linear part with the force;
    on coefficients, the sum of the six products of matching
    coefficients, head first. *)
Theorem dot_pairing (v : MotionVec T) (f : ForceVec T) :
  dot v f = dot3 (angular v) (moment f) + dot3 (linear v) (force f) /\
  dot v f =
    (c0 (vector v) * c0 (fv_ f) + c1 (vector v) * c1 (fv_ f)
       + c2 (vector v) * c2 (fv_ f))
    + (c3 (vector v) * c3 (fv_ f) + c4 (vector v) * c4 (fv_ f)
       + c5 (vector v) * c5 (fv_ f)).
Proof. split; reflexivity. Qed.

(** [!=] is the negation of [==]. *)
Lemma neb6_negb_eqb6 (a b : Vector6 T) : neb6 a b = negb (eqb6 a b).
Proof.
  unfold neb6, eqb6, Tneb. now rewrite !negb_andb.
Qed.

Lemma eqb6_true_iff (a b : Vector6 T) :
  eqb6 a b = true <->
  Teqb (c0 a) (c0 b) = true /\ Teqb (c1 a) (c1 b) = true /\
  Teqb (c2 a) (c2 b) = true /\ Teqb (c3 a) (c3 b) = true /\
  Teqb (c4 a) (c4 b) = true /\ Teqb (c5 a) (c5 b) = true.
Proof.
  unfold eqb6. rewrite !andb_true_iff. tauto.
Qed.

End AnyScalar.

(** *** Facts that need exact arithmetic *)
Section Exact.
Context {T : Type} {ops : ScalarOps T} {exact : ExactScalar T}.
Local Open Scope scalar_scope.

Add Ring scalar_ring_T : scalar_ring.

Lemma Teqb_refl (a : T) : Teqb a a = true.
Proof. now apply Teqb_eq. Qed.

Lemma Teqb_sym (a b : T) : Teqb a b = Teqb b a.
Proof.
  destruct (Teqb a b) eqn:E, (Teqb b a) eqn:F; trivial.
  - apply Teqb_eq in E. subst b. now rewrite Teqb_refl in F.
  - apply Teqb_eq in F. subst b. now rewrite Teqb_refl in E.
Qed.

Lemma eqb6_eq (a b : Vector6 T) : eqb6 a b = true <-> a = b.
Proof.
  rewrite eqb6_true_iff, !Teqb_eq. destruct a, b; simpl. split.
  - intros (-> & -> & -> & -> & -> & ->). reflexivity.
  - intros E. injection E as -> -> -> -> -> ->. tauto.
Qed.

Lemma MotionVec_eqb_eq (v w : MotionVec T) : eqb v w = true <-> v = w.
Proof.
  unfold eqb. rewrite eqb6_eq. destruct v, w; simpl.
  split; [intros -> | intros E; injection E]; trivial.
Qed.

(** The 3D cross product is antisymmetric and vanishes on the diagonal. *)
Lemma cross3_self (a : Vector3 T) : cross3 a a = Vector3_Zero.
Proof. unfold cross3, Vector3_Zero. f_equal; ring. Qed.

Lemma cross3_antisym (a b : Vector3 T) :
  cross3 a b = mkVector3 (- x (cross3 b a)) (- y (cross3 b a)) (- z (cross3 b a)).
Proof. unfold cross3; simpl. f_equal; ring. Qed.

(** The dot product is additive in both arguments. *)
Lemma dot3_add3_l (a b c : Vector3 T) :
  dot3 (add3 a b) c = dot3 a c + dot3 b c.
Proof. unfold dot3, add3; simpl. ring. Qed.

Lemma dot3_add3_r (a b c : Vector3 T) :
  dot3 a (add3 b c) = dot3 a b + dot3 a c.
Proof. unfold dot3, add3; simpl. ring. Qed.

(** Swapping the two outer factors of a scalar triple product changes
    its sign. *)
Lemma dot3_cross3_swap (a b c : Vector3 T) :
  dot3 (cross3 a b) c = - dot3 b (cross3 a c).
Proof. unfold dot3, cross3; simpl. ring. Qed.

(** C1: the angular part of [a.cross(b)] is [aw x bw], its linear part
    is [aw x bv + av x bw]; for a = ((0,0,1),(1,0,0)) and
    b = ((0,1,0),(0,0,1)) the result is ((-1,0,0),(0,0,1)). *)
Theorem cross_parts (a b : MotionVec T) :
  angular (cross a b) = cross3 (angular a) (angular b) /\
  linear (cross a b) =
    add3 (cross3 (angular a) (linear b)) (cross3 (linear a) (angular b)) /\
  cross (MotionVec_of_parts (mkVector3 0 0 1) (mkVector3 1 0 0))
        (MotionVec_of_parts (mkVector3 0 1 0) (mkVector3 0 0 1))
    = MotionVec_of_parts (mkVector3 (- (1)) 0 0) (mkVector3 0 0 1).
Proof.
  split; [apply angular_cross | split; [apply linear_cross|]].
  unfold cross, MotionVec_of_parts, comma33; simpl.
  do 2 f_equal; ring.
Qed.


(** With exact arithmetic [v.cross(v)] is the zero motion vector, as an
    equation and under [operator==]. *)
Lemma cross_self_exact (v : MotionVec T) :
  cross v v = MotionVec_Zero /\ eqb (cross v v) MotionVec_Zero = true.
Proof.
  rewrite MotionVec_eqb_eq. cut (cross v v = MotionVec_Zero); [tauto|].
  unfold cross, MotionVec_Zero, MotionVec_of_parts, MotionVec_of_vector.
  rewrite cross3_self, (cross3_antisym (angular v) (linear v)).
  unfold comma33, add3, Vector3_Zero, Vector6_Zero; simpl.
  do 2 f_equal; ring.
Qed.

(** With exact arithmetic [a.cross(b)] is the coefficient-wise negation
    of [b.cross(a)], as an equation and under [operator==]. *)
Lemma cross_antisym_exact (a b : MotionVec T) :
  cross a b = neg (cross b a) /\ eqb (cross a b) (neg (cross b a)) = true.
Proof.
  rewrite MotionVec_eqb_eq. cut (cross a b = neg (cross b a)); [tauto|].
  unfold cross, neg, MotionVec_of_parts, MotionVec_of_vector.
  rewrite (cross3_antisym (angular a) (angular b)),
          (cross3_antisym (angular a) (linear b)),
          (cross3_antisym (linear a) (angular b)).
  unfold comma33, add3, opp6; simpl.
  do 2 f_equal; ring.
Qed.

End Exact.

(** *** The statements at work on integer vectors *)
Section OnIntegers.
Import Samples.
Local Open Scope Z_scope.

Lemma cross_parts_witness :
  angular (cross a0 b0) = mkVector3 (-1) 0 0 /\
  linear (cross a0 b0) = mkVector3 0 0 1.
Proof.
  destruct (cross_parts (exact := Z_exact) a0 b0) as (Ha & Hl & _).
  rewrite Ha, Hl. split; reflexivity.
Defined.


End OnIntegers.

(** *** Facts about IEEE arithmetic

    On the specification of the binary formats: what survives of the
    ring laws once results are rounded, and may be infinite or NaN. *)
Section SpecFloatFacts.
Variables prec emax : Z.

Lemma binary_round_aux_negb (s : bool) (m e : Z) (l : location) :
  binary_round_aux prec emax (negb s) m e l
  = SFopp (binary_round_aux prec emax s m e l).
Proof.
  unfold binary_round_aux.
  destruct (shr_fexp prec emax m e l) as [mrs' e'].
  destruct (shr_fexp prec emax _ e' loc_Exact) as [mrs'' e''].
  destruct (shr_m mrs''); try reflexivity.
  destruct (Z.leb e'' (Z.sub emax prec)); reflexivity.
Qed.

Lemma binary_round_negb (s : bool) (m : positive) (e : Z) :
  binary_round prec emax (negb s) m e = SFopp (binary_round prec emax s m e).
Proof.
  unfold binary_round.
  destruct (shl_align m e _) as [mz ez]. apply binary_round_aux_negb.
Qed.

Lemma zsim_refl a : zsim a a.
Proof. now left. Qed.

Lemma zsim_sym a b : zsim a b -> zsim b a.
Proof. intros [->|(s & t & -> & ->)]; [now left | right; eauto]. Qed.

Lemma zsim_trans a b c : zsim a b -> zsim b c -> zsim a c.
Proof.
  intros [->|(s & t & -> & ->)] H; trivial.
  destruct H as [<-|(u & v & E & ->)]; right; eauto.
Qed.

Lemma zsim_zero s t : zsim (S754_zero s) (S754_zero t).
Proof. right; eauto. Qed.

Lemma zsim_opp a b : zsim a b -> zsim (SFopp a) (SFopp b).
Proof. intros [->|(s & t & -> & ->)]; [now left | apply zsim_zero]. Qed.

Lemma SFopp_involutive a : SFopp (SFopp a) = a.
Proof. destruct a as [s|s| |s m e]; simpl; now rewrite ?negb_involutive. Qed.

Lemma binary_normalize_opp (m e : Z) :
  zsim (binary_normalize prec emax (- m) e false)
       (SFopp (binary_normalize prec emax m e false)).
Proof.
  destruct m as [|p|p]; simpl.
  - apply zsim_zero.
  - left. apply (binary_round_negb false).
  - left. now rewrite (binary_round_negb false), SFopp_involutive.
Qed.

Lemma SFmul_comm a b : SFmul prec emax a b = SFmul prec emax b a.
Proof.
  destruct a as [s|s| |s m e], b as [t|t| |t n f]; simpl;
    rewrite ?(xorb_comm s t); try reflexivity.
  now rewrite Pos.mul_comm, Z.add_comm.
Qed.

Lemma SFadd_comm a b : SFadd prec emax a b = SFadd prec emax b a.
Proof.
  destruct a as [s|s| |s m e], b as [t|t| |t n f]; simpl;
    try reflexivity; try (destruct s, t; reflexivity).
  now rewrite Z.add_comm, Z.min_comm.
Qed.

Lemma cond_Zopp_negb s m : cond_Zopp (negb s) m = (- cond_Zopp s m)%Z.
Proof. destruct s; simpl; now rewrite ?Z.opp_involutive. Qed.

(** [b - a] is the opposite of [a - b], up to the sign of a zero. *)
Lemma SFsub_swap a b :
  zsim (SFsub prec emax b a) (SFopp (SFsub prec emax a b)).
Proof.
  destruct a as [s|s| |s m e], b as [t|t| |t n f]; simpl;
    try (destruct s, t; simpl; (now left) || apply zsim_zero);
    try (left; simpl; now rewrite ?negb_involutive).
  rewrite (Z.min_comm f e).
  replace (cond_Zopp t (Z.pos (fst (shl_align n f (Z.min e f)))) -
           cond_Zopp s (Z.pos (fst (shl_align m e (Z.min e f)))))%Z
    with (- (cond_Zopp s (Z.pos (fst (shl_align m e (Z.min e f)))) -
             cond_Zopp t (Z.pos (fst (shl_align n f (Z.min e f))))))%Z
    by (now rewrite Z.opp_sub_distr, Z.add_comm, Z.add_opp_r).
  apply binary_normalize_opp.
Qed.

(** [a - a] is +0 unless it is NaN. *)
Lemma SFsub_diag a :
  SFsub prec emax a a = S754_zero false \/ SFsub prec emax a a = S754_nan.
Proof.
  destruct a as [s|s| |s m e]; simpl.
  - left. now destruct s.
  - right. now destruct s.
  - now right.
  - left. now rewrite Z.sub_diag.
Qed.

(** [a + (-a)] is +0 unless it is NaN. *)
Lemma SFadd_opp_diag a :
  SFadd prec emax a (SFopp a) = S754_zero false \/
  SFadd prec emax a (SFopp a) = S754_nan.
Proof.
  destruct a as [s|s| |s m e]; simpl.
  - left. now destruct s.
  - right. now destruct s.
  - now right.
  - left. rewrite Z.min_id, cond_Zopp_negb, Z.add_opp_diag_r. reflexivity.
Qed.

Lemma SFadd_zsim a a' b b' :
  zsim a a' -> zsim b b' ->
  zsim (SFadd prec emax a b) (SFadd prec emax a' b').
Proof.
  intros [->|(s & t & -> & ->)] [->|(u & v & -> & ->)].
  - apply zsim_refl.
  - destruct a' as [s|s| |s m e]; simpl; try apply zsim_refl.
    destruct s, u, v; apply zsim_zero.
  - destruct b' as [u|u| |u m e]; simpl; try apply zsim_refl.
    destruct s, t, u; apply zsim_zero.
  - simpl. destruct s, t, u, v; apply zsim_zero.
Qed.

Lemma SFadd_opp a b :
  zsim (SFadd prec emax (SFopp a) (SFopp b))
       (SFopp (SFadd prec emax a b)).
Proof.
  destruct a as [s|s| |s m e], b as [t|t| |t n f]; simpl;
    try (destruct s, t; simpl; (now left) || apply zsim_zero);
    try (now left).
  rewrite !cond_Zopp_negb, <- Z.opp_add_distr.
  apply binary_normalize_opp.
Qed.

Lemma SFeqb_zsim a b :
  zsim a b -> a = S754_nan \/ SFeqb a b = true.
Proof.
  intros [->|(s & t & -> & ->)]; [|now right].
  destruct b as [s|s| |s m e]; [right|right|left|right]; trivial.
  - now destruct s.
  - unfold SFeqb, SFcompare.
    rewrite Z.compare_refl, Pos.compare_cont_refl. now destruct s.
Qed.

Lemma SFeqb_nan_l b : SFeqb S754_nan b = false.
Proof. reflexivity. Qed.

Lemma SFeqb_self a : SFeqb a a = false -> a = S754_nan.
Proof.
  intros E. destruct (SFeqb_zsim a a (zsim_refl a)) as [H|H]; congruence.
Qed.

Lemma binary_normalize_opp_exact (m e : Z) :
  binary_normalize prec emax (- m) e false
    = SFopp (binary_normalize prec emax m e false) \/
  (binary_normalize prec emax m e false = S754_zero false /\
   binary_normalize prec emax (- m) e false = S754_zero false).
Proof.
  destruct m as [|p|p]; simpl.
  - right. now split.
  - left. apply (binary_round_negb false).
  - left. now rewrite (binary_round_negb false), SFopp_involutive.
Qed.

(** [b - a] is exactly the opposite of [a - b], unless both are +0. *)
Lemma SFsub_swap_exact a b :
  SFsub prec emax b a = SFopp (SFsub prec emax a b) \/
  (SFsub prec emax a b = S754_zero false /\
   SFsub prec emax b a = S754_zero false).
Proof.
  destruct a as [s|s| |s m e], b as [t|t| |t n f]; simpl;
    try (destruct s, t; simpl; auto; fail);
    try (left; simpl; now rewrite ?negb_involutive).
  rewrite (Z.min_comm f e).
  replace (cond_Zopp t (Z.pos (fst (shl_align n f (Z.min e f)))) -
           cond_Zopp s (Z.pos (fst (shl_align m e (Z.min e f)))))%Z
    with (- (cond_Zopp s (Z.pos (fst (shl_align m e (Z.min e f)))) -
             cond_Zopp t (Z.pos (fst (shl_align n f (Z.min e f))))))%Z
    by (now rewrite Z.opp_sub_distr, Z.add_comm, Z.add_opp_r).
  apply binary_normalize_opp_exact.
Qed.

Lemma SFeqb_true_self a b : SFeqb a b = true -> SFeqb a a = true.
Proof.
  intros E. destruct (SFeqb_zsim a a (zsim_refl a)) as [->|H]; trivial.
Qed.

End SpecFloatFacts.

(** The same facts on [double]. *)
Section Binary64Facts.
Local Open Scope float_scope.

Lemma b64_nan (c : float) : Prim2SF c = S754_nan -> c = nan.
Proof. intros E. now apply Prim2SF_inj. Qed.

Lemma b64_zero (c : float) : Prim2SF c = S754_zero false -> c = 0.
Proof. intros E. now apply Prim2SF_inj. Qed.

Lemma b64_mul_comm (a b : float) : a * b = b * a.
Proof.
  apply Prim2SF_inj. rewrite !mul_spec. apply SFmul_comm.
Qed.

Lemma b64_sub_diag (p : float) : zero_or_nan (p - p).
Proof.
  destruct (SFsub_diag prec emax (Prim2SF p)) as [E|E];
    rewrite <- sub_spec in E; [left; now apply b64_zero | right; now apply b64_nan].
Qed.

Lemma b64_sub_swap_add (p q : float) : zero_or_nan ((p - q) + (q - p)).
Proof.
  assert (E : Prim2SF ((p - q) + (q - p)) = S754_zero false \/
              Prim2SF ((p - q) + (q - p)) = S754_nan).
  { rewrite add_spec, !sub_spec. unfold SF64add, SF64sub.
    destruct (SFsub_swap_exact prec emax (Prim2SF p) (Prim2SF q))
      as [->|[-> ->]].
    - apply SFadd_opp_diag.
    - now left. }
  destruct E as [E|E]; [left; now apply b64_zero | right; now apply b64_nan].
Qed.

(** [l == r] fails only on a NaN when [l] and [r] agree up to the sign
    of a zero. *)
Lemma b64_eqb_zsim (l r : float) :
  zsim (Prim2SF l) (Prim2SF r) -> PrimFloat.eqb l r = negb (is_nan l).
Proof.
  intros Z. unfold is_nan. rewrite !eqb_spec.
  destruct (SFeqb_zsim _ _ Z) as [E|E].
  - now rewrite E.
  - now rewrite E, (SFeqb_true_self _ _ E).
Qed.

Lemma b64_sub_antisym (p q : float) :
  PrimFloat.eqb (p - q) (- (q - p)) = negb (is_nan (p - q)).
Proof.
  apply b64_eqb_zsim. rewrite opp_spec, !sub_spec. unfold SF64sub.
  apply zsim_sym.
  rewrite <- (SFopp_involutive (SFsub prec emax (Prim2SF p) (Prim2SF q))).
  apply zsim_opp, SFsub_swap.
Qed.

Lemma b64_add_sub_antisym (p q r s : float) :
  PrimFloat.eqb ((p - q) + (r - s)) (- ((s - r) + (q - p)))
  = negb (is_nan ((p - q) + (r - s))).
Proof.
  apply b64_eqb_zsim. rewrite opp_spec, !add_spec, !sub_spec.
  unfold SF64add, SF64sub.
  set (P := Prim2SF p); set (Q := Prim2SF q);
    set (R := Prim2SF r); set (S := Prim2SF s).
  apply zsim_sym.
  rewrite <- (SFopp_involutive
                (SFadd prec emax (SFsub prec emax P Q) (SFsub prec emax R S))).
  apply zsim_opp.
  rewrite (SFadd_comm prec emax (SFsub prec emax P Q)).
  eapply zsim_trans; [|apply SFadd_opp].
  apply SFadd_zsim; apply SFsub_swap.
Qed.

Lemma b64_zero_or_nan_eqb (c : float) :
  zero_or_nan c -> PrimFloat.eqb c 0 = negb (is_nan c).
Proof. intros [->| ->]; reflexivity. Qed.

End Binary64Facts.

(** *** The cross product and [==] on [double] vectors *)
Section Binary64Cross.
Local Open Scope float_scope.

Ltac expose_binary64 :=
  intros;
  repeat match goal with
         | v : MotionVec _ |- _ => destruct v as [v]
         | v : Vector6 _ |- _ => destruct v
         end;
  cbv beta iota zeta delta
    [cross neg eqb MotionVec_Zero MotionVec_of_parts MotionVec_of_vector
     angular linear vector comma33 head3 tail3 cross3 add3 opp6
     eqb6 has_nan Forall6 Vector6_Zero mv_ x y z c0 c1 c2 c3 c4 c5
     Tzero Tadd Tmul Tsub Topp Teqb binary64_ops].

Lemma b64_self_ang (p q : float) : zero_or_nan (p * q - q * p).
Proof. rewrite (b64_mul_comm q p). apply b64_sub_diag. Qed.

Lemma b64_self_lin (wp vq wq vp : float) :
  zero_or_nan ((wp * vq - wq * vp) + (vp * wq - vq * wp)).
Proof.
  rewrite (b64_mul_comm vp wq), (b64_mul_comm vq wp).
  apply b64_sub_swap_add.
Qed.

Lemma b64_cross_ang (ap bq aq bp : float) :
  PrimFloat.eqb (ap * bq - aq * bp) (- (bp * aq - bq * ap))
  = negb (is_nan (ap * bq - aq * bp)).
Proof.
  rewrite (b64_mul_comm bp aq), (b64_mul_comm bq ap).
  apply b64_sub_antisym.
Qed.

Lemma b64_cross_lin (wp vq wq vp up tq uq tp : float) :
  PrimFloat.eqb ((wp * vq - wq * vp) + (up * tq - uq * tp))
                (- ((tp * uq - tq * up) + (vp * wq - vq * wp)))
  = negb (is_nan ((wp * vq - wq * vp) + (up * tq - uq * tp))).
Proof.
  rewrite (b64_mul_comm tp uq), (b64_mul_comm tq up),
          (b64_mul_comm vp wq), (b64_mul_comm vq wp).
  apply b64_add_sub_antisym.
Qed.

(** On [double], each coefficient of [v.cross(v)] is +0 or a NaN. *)
Lemma cross_self_coefficients (v : MotionVec float) :
  Forall6 zero_or_nan (vector (cross v v)).
Proof.
  expose_binary64.
  repeat split; (apply b64_self_ang || apply b64_self_lin).
Qed.

Lemma eqb6_zero_binary64 (u : Vector6 float) :
  Forall6 zero_or_nan u -> eqb6 u Vector6_Zero = negb (has_nan u).
Proof.
  destruct u as [u0 u1 u2 u3 u4 u5]. unfold Forall6; cbn [c0 c1 c2 c3 c4 c5].
  intros (H0 & H1 & H2 & H3 & H4 & H5).
  expose_binary64. rewrite !negb_orb.
  now rewrite (b64_zero_or_nan_eqb _ H0), (b64_zero_or_nan_eqb _ H1),
    (b64_zero_or_nan_eqb _ H2), (b64_zero_or_nan_eqb _ H3),
    (b64_zero_or_nan_eqb _ H4), (b64_zero_or_nan_eqb _ H5).
Qed.

(** On [double], [v.cross(v) == 0] fails only through a NaN. *)
Lemma cross_self_binary64 (v : MotionVec float) :
  eqb (cross v v) MotionVec_Zero = negb (has_nan (vector (cross v v))).
Proof. apply eqb6_zero_binary64, cross_self_coefficients. Qed.

(** On [double], [a.cross(b) == -(b.cross(a))] fails only through a
    NaN. *)
Lemma cross_antisym_binary64 (a b : MotionVec float) :
  eqb (cross a b) (neg (cross b a)) = negb (has_nan (vector (cross a b))).
Proof.
  expose_binary64. rewrite !negb_orb.
  repeat match goal with
         | |- andb _ _ = andb _ _ => apply f_equal2
         end; (apply b64_cross_ang || apply b64_cross_lin).
Qed.

End Binary64Cross.

(** *** [==] for any scalar type *)
Section Comparison.
Context {T : Type} {ops : ScalarOps T}.

(** C10, as amended: [v == w] holds exactly when the six pairs of
    matching coefficients are equal under [T]'s [==], and [v != w]
    exactly when [v == w] does not.  [v == v] holds exactly when every
    coefficient is equal to itself under [T]'s [==], so always when that
    [==] is reflexive; and [v == w] agrees with [w == v] when that [==]
    is symmetric. *)
Theorem eqb_elementwise (v w : MotionVec T) :
  (eqb v w = true <->
     Teqb (c0 (vector v)) (c0 (vector w)) = true /\
     Teqb (c1 (vector v)) (c1 (vector w)) = true /\
     Teqb (c2 (vector v)) (c2 (vector w)) = true /\
     Teqb (c3 (vector v)) (c3 (vector w)) = true /\
     Teqb (c4 (vector v)) (c4 (vector w)) = true /\
     Teqb (c5 (vector v)) (c5 (vector w)) = true) /\
  (neb v w = true <-> eqb v w <> true) /\
  (eqb v v = true <->
     Forall6 (fun t => Teqb t t = true) (vector v)) /\
  ((forall t : T, Teqb t t = true) -> eqb v v = true) /\
  ((forall s t : T, Teqb s t = Teqb t s) ->
   (eqb v w = true <-> eqb w v = true)).
Proof.
  unfold eqb, neb, vector.
  split; [apply eqb6_true_iff|].
  split.
  { rewrite neb6_negb_eqb6. destruct (eqb6 (mv_ v) (mv_ w)); simpl.
    - split; [discriminate | intros E; now elim E].
    - split; [discriminate | reflexivity]. }
  split; [apply eqb6_true_iff|].
  split.
  - intros Hrefl. apply eqb6_true_iff. repeat split; apply Hrefl.
  - intros Hsym. unfold eqb6.
    now rewrite (Hsym (c0 (mv_ v))), (Hsym (c1 (mv_ v))), (Hsym (c2 (mv_ v))),
      (Hsym (c3 (mv_ v))), (Hsym (c4 (mv_ v))), (Hsym (c5 (mv_ v))).
Qed.

End Comparison.

(** *** Exact arithmetic and [double] side by side *)



(** *** The claims as written, on [double] vectors *)
Section OnDoubles.
Import Samples.




(** C10, the claim as written fails: a vector with a NaN coefficient is
    not [==] to itself. *)
Lemma eqb_not_reflexive_binary64 :
  eqb vnan vnan = false /\ neb vnan vnan = true.
Proof. split; reflexivity. Qed.



Lemma eqb_elementwise_witness :
  eqb v0 v0 = true /\ (eqb v0 a0 = true <-> eqb a0 v0 = true) /\
  (eqb vnan vnan = true <->
   Forall6 (fun t => PrimFloat.eqb t t = true) (vector vnan)).
Proof.
  destruct (eqb_elementwise v0 a0) as (_ & _ & _ & Hr & Hs).
  split; [exact (Hr Z.eqb_refl)|].
  split; [exact (Hs Z.eqb_sym)|].
  exact (proj1 (proj2 (proj2 (eqb_elementwise vnan vnan)))).
Defined.

End OnDoubles.

(** ** Further properties of the header's members

    The remaining constructors and accessors, [cast], [operator+],
    binary and unary [operator-], and how they combine with the scalar
    product, with [==] and with the spatial products. *)

(** Expose the coefficients of every vector at hand. *)
Ltac expose_coefficients :=
  intros;
  repeat match goal with
         | v : MotionVec _ |- _ => destruct v as [v]
         | v : ForceVec _ |- _ => destruct v as [v]
         | v : Vector6 _ |- _ => destruct v
         | v : Vector3 _ |- _ => destruct v
         end;
  cbv beta iota zeta delta
    [cross crossDual dot plus minus neg mul_scalar scalar_mul cast
     MotionVec_Zero MotionVec_of_parts MotionVec_of_vector
     ForceVec_of_parts angular linear vector moment force
     comma33 head3 tail3 cross3 dot3 add3 sub3 opp3 scale3
     add6 sub6 opp6 scale6 cast3 cast6 Vector3_Zero Vector6_Zero
     mv_ fv_ x y z c0 c1 c2 c3 c4 c5].

(** *** For any scalar type *)
Section PartsAnyScalar.
Context {T : Type} {ops : ScalarOps T}.
Local Open Scope scalar_scope.

Lemma of_parts_angular_linear (m : MotionVec T) :
  MotionVec_of_parts (angular m) (linear m) = m.
Proof. expose_coefficients. reflexivity. Qed.

(** X1: a motion vector is given back by the two-argument constructor
    applied to its own angular and linear parts, and by the 6-vector
    constructor applied to its own [vector()]. *)
Theorem MotionVec_rebuild (m : MotionVec T) :
  MotionVec_of_parts (angular m) (linear m) = m /\
  MotionVec_of_vector (vector m) = m.
Proof.
  split; [apply of_parts_angular_linear | now destruct m].
Qed.

(** X2: two motion vectors are the same exactly when their angular parts
    and their linear parts coincide. *)
Theorem MotionVec_parts_ext (a b : MotionVec T) :
  a = b <-> angular a = angular b /\ linear a = linear b.
Proof.
  split; [intros ->; split; reflexivity|].
  intros [Ha Hl].
  rewrite <- (of_parts_angular_linear a), <- (of_parts_angular_linear b).
  now rewrite Ha, Hl.
Qed.

(** X3: [==] on motion vectors is [==] of the angular parts and [==] of
    the linear parts; [!=] is [!=] of the angular parts or [!=] of the
    linear parts. *)
Theorem eqb_by_parts (a b : MotionVec T) :
  eqb a b = eqb3 (angular a) (angular b) && eqb3 (linear a) (linear b) /\
  neb a b = neb3 (angular a) (angular b) || neb3 (linear a) (linear b).
Proof.
  unfold eqb, neb, eqb6, neb6, eqb3, neb3, angular, linear, head3, tail3.
  cbn [x y z]. split.
  - now rewrite !andb_assoc.
  - now rewrite !orb_assoc.
Qed.

(** X4: [operator+], both [operator-] and the product by a scalar act on
    the angular and on the linear part separately: the result is the
    vector built from the two 3-vector results. *)
Theorem operators_by_parts {T2 : Type} (to_T : T2 -> T)
    (a b : MotionVec T) (k : T2) :
  plus a b =
    MotionVec_of_parts (add3 (angular a) (angular b))
                       (add3 (linear a) (linear b)) /\
  minus a b =
    MotionVec_of_parts (sub3 (angular a) (angular b))
                       (sub3 (linear a) (linear b)) /\
  neg a = MotionVec_of_parts (opp3 (angular a)) (opp3 (linear a)) /\
  mul_scalar to_T a k =
    MotionVec_of_parts (scale3 (to_T k) (angular a))
                       (scale3 (to_T k) (linear a)).
Proof. repeat split. Qed.

End PartsAnyScalar.

(** *** Scalar-type casts *)
Section Casts.
Context {T T2 T3 : Type}.

(** X5: [cast] converts the angular and the linear part separately, and
    a cast of a vector built from two parts is built from the two cast
    parts. *)
Theorem cast_by_parts (conv : T -> T2) (m : MotionVec T)
    (a l : Vector3 T) :
  angular (cast conv m) = cast3 conv (angular m) /\
  linear (cast conv m) = cast3 conv (linear m) /\
  cast conv (MotionVec_of_parts a l) =
    MotionVec_of_parts (cast3 conv a) (cast3 conv l).
Proof. repeat split. Qed.

Lemma cast_same (m : MotionVec T) : cast (fun t => t) m = m.
Proof. expose_coefficients. reflexivity. Qed.

(** X6: two casts in a row are one cast by the composed conversion, and
    the cast by the conversion that changes nothing is the identity. *)
Theorem cast_cast (conv : T -> T2) (conv' : T2 -> T3) (m : MotionVec T) :
  cast conv' (cast conv m) = cast (fun t => conv' (conv t)) m /\
  cast (fun t => t) m = m.
Proof. split; [reflexivity | apply cast_same]. Qed.

End Casts.

Section CastBack.
Context {T T2 : Type}.

(** X7: casting to a type from which every value converts back
    unchanged, and back, gives the vector one started from. *)
Theorem cast_roundtrip (conv : T -> T2) (back : T2 -> T)
    (Hback : forall t, back (conv t) = t) (m : MotionVec T) :
  cast back (cast conv m) = m.
Proof.
  expose_coefficients. now rewrite !Hback.
Qed.

(** X8: if the conversion loses nothing (it is injective), two casts
    agree exactly when the two vectors do. *)
Theorem cast_injective (conv : T -> T2)
    (Hinj : forall s t, conv s = conv t -> s = t) (a b : MotionVec T) :
  cast conv a = cast conv b <-> a = b.
Proof.
  split; [|now intros ->].
  intros E. expose_coefficients.
  cbv beta iota delta
    [cast MotionVec_of_vector cast6 mv_ c0 c1 c2 c3 c4 c5] in E.
  injection E. intros.
  do 2 f_equal; apply Hinj; assumption.
Qed.

End CastBack.

(** *** With exact arithmetic *)
Section GroupAndModule.
Context {T : Type} {ops : ScalarOps T} {exact : ExactScalar T}.
Local Open Scope scalar_scope.

Add Ring scalar_ring_T' : scalar_ring.

(** Close a goal between two vectors given coefficient by coefficient. *)
Ltac coefficientwise := expose_coefficients; do 2 f_equal; ring.

(** X9: [operator+] is commutative and associative. *)
Theorem plus_comm_assoc (a b c : MotionVec T) :
  plus a b = plus b a /\ plus (plus a b) c = plus a (plus b c).
Proof. split; coefficientwise. Qed.

(** X10: the zero motion vector is neutral for [operator+] on both
    sides, and the unary [operator-] gives the inverse. *)
Theorem plus_zero_neg (v : MotionVec T) :
  plus v MotionVec_Zero = v /\ plus MotionVec_Zero v = v /\
  plus v (neg v) = MotionVec_Zero /\ plus (neg v) v = MotionVec_Zero.
Proof. repeat split; coefficientwise. Qed.

(** X11: the binary [operator-] adds the negation; it undoes an
    addition and is undone by one, and [v - v] is zero. *)
Theorem minus_plus_neg (a b : MotionVec T) :
  minus a b = plus a (neg b) /\
  minus (plus a b) b = a /\ plus (minus a b) b = a /\
  minus a a = MotionVec_Zero.
Proof. repeat split; coefficientwise. Qed.

(** X12: negating twice changes nothing, negation distributes over
    [operator+] and swaps the operands of the binary [operator-]. *)
Theorem neg_involutive (a b : MotionVec T) :
  neg (neg a) = a /\
  neg (plus a b) = plus (neg a) (neg b) /\
  neg (minus a b) = minus b a.
Proof. repeat split; coefficientwise. Qed.

(** X13: the product by a scalar distributes over [operator+] and both
    [operator-], whatever the conversion of the scalar. *)
Theorem mul_scalar_distributes {T2 : Type} (to_T : T2 -> T)
    (a b : MotionVec T) (k : T2) :
  mul_scalar to_T (plus a b) k =
    plus (mul_scalar to_T a k) (mul_scalar to_T b k) /\
  mul_scalar to_T (minus a b) k =
    minus (mul_scalar to_T a k) (mul_scalar to_T b k) /\
  mul_scalar to_T (neg a) k = neg (mul_scalar to_T a k).
Proof. repeat split; coefficientwise. Qed.

(** X14: with a scalar of type [T] itself, the product by 1 changes
    nothing, the product by 0 is the zero vector and the product by -1
    is the unary [operator-]. *)
Theorem mul_scalar_units (v : MotionVec T) :
  mul_scalar (fun t => t) v 1 = v /\
  mul_scalar (fun t => t) v 0 = MotionVec_Zero /\
  mul_scalar (fun t => t) v (- (1)) = neg v.
Proof. repeat split; coefficientwise. Qed.

(** X15: scaling twice, by scalars of any two types, scales by the
    product of the converted scalars, in either order; and with scalars
    of type [T], scaling by a sum adds the two scaled vectors. *)
Theorem mul_scalar_twice {T2 T3 : Type} (to_T : T2 -> T) (to_T' : T3 -> T)
    (v : MotionVec T) (k : T2) (l : T3) (s t : T) :
  mul_scalar to_T' (mul_scalar to_T v k) l =
    mul_scalar (fun t => t) v (to_T' l * to_T k) /\
  mul_scalar to_T' (mul_scalar to_T v k) l =
    mul_scalar to_T (mul_scalar to_T' v l) k /\
  mul_scalar (fun t => t) v (s + t) =
    plus (mul_scalar (fun t => t) v s) (mul_scalar (fun t => t) v t).
Proof. repeat split; coefficientwise. Qed.

(** X16: [==] decides equality of motion vectors and [!=] decides their
    difference. *)
Theorem eqb_neb_decide (v w : MotionVec T) :
  (eqb v w = true <-> v = w) /\ (neb v w = true <-> v <> w).
Proof.
  split; [apply MotionVec_eqb_eq|].
  unfold neb. rewrite neb6_negb_eqb6, negb_true_iff.
  rewrite <- MotionVec_eqb_eq. unfold eqb.
  destruct (eqb6 (mv_ v) (mv_ w)); split; congruence.
Qed.

(** X17: [==] is transitive. *)
Theorem eqb_trans (a b c : MotionVec T)
    (Hab : eqb a b = true) (Hbc : eqb b c = true) :
  eqb a c = true.
Proof.
  apply MotionVec_eqb_eq in Hab, Hbc. apply MotionVec_eqb_eq. congruence.
Qed.

(** X18: [cross] is additive in each argument. *)
Theorem cross_additive (a b c : MotionVec T) :
  cross (plus a b) c = plus (cross a c) (cross b c) /\
  cross a (plus b c) = plus (cross a b) (cross a c).
Proof. split; coefficientwise. Qed.

(** X19: a scalar factor and a negation move out of either argument of
    [cross]. *)
Theorem cross_homogeneous {T2 : Type} (to_T : T2 -> T)
    (a b : MotionVec T) (k : T2) :
  cross (mul_scalar to_T a k) b = mul_scalar to_T (cross a b) k /\
  cross a (mul_scalar to_T b k) = mul_scalar to_T (cross a b) k /\
  cross (neg a) b = neg (cross a b) /\
  cross a (neg b) = neg (cross a b).
Proof. repeat split; coefficientwise. Qed.

(** X20: [dot] is linear in the motion vector: additive, and a scalar
    factor or a negation moves out. *)
Theorem dot_linear {T2 : Type} (to_T : T2 -> T)
    (a b : MotionVec T) (f : ForceVec T) (k : T2) :
  dot (plus a b) f = dot a f + dot b f /\
  dot (minus a b) f = dot a f - dot b f /\
  dot (mul_scalar to_T a k) f = to_T k * dot a f /\
  dot (neg a) f = - dot a f.
Proof. repeat split; expose_coefficients; ring. Qed.

(** X21: [cross] satisfies the Jacobi identity. *)
Theorem cross_jacobi (a b c : MotionVec T) :
  plus (plus (cross a (cross b c)) (cross b (cross c a)))
       (cross c (cross a b)) = MotionVec_Zero.
Proof. coefficientwise. Qed.

End GroupAndModule.

(** *** The further statements at work on sample vectors *)
Section MoreOnIntegers.
Import Samples.
Local Open Scope Z_scope.

Lemma cast_roundtrip_witness : cast Z.to_nat (cast Z.of_nat n0) = n0.
Proof. exact (cast_roundtrip Z.of_nat Z.to_nat Nat2Z.id n0). Defined.

Lemma cast_injective_witness : n0 = n0'.
Proof.
  apply (cast_injective Z.of_nat Nat2Z.inj n0 n0'). reflexivity.
Defined.

Lemma plus_comm_assoc_witness :
  plus a0 b0 = plus b0 a0 /\ plus (plus a0 b0) v0 = plus a0 (plus b0 v0).
Proof. exact (plus_comm_assoc (exact := Z_exact) a0 b0 v0). Defined.

Lemma plus_zero_neg_witness :
  plus v0 MotionVec_Zero = v0 /\ plus v0 (neg v0) = MotionVec_Zero.
Proof.
  destruct (plus_zero_neg (exact := Z_exact) v0) as (H0 & _ & Hn & _).
  exact (conj H0 Hn).
Defined.

Lemma minus_plus_neg_witness :
  minus v0 a0 = plus v0 (neg a0) /\ plus (minus v0 a0) a0 = v0.
Proof.
  destruct (minus_plus_neg (exact := Z_exact) v0 a0) as (Hm & _ & Hp & _).
  exact (conj Hm Hp).
Defined.

Lemma neg_involutive_witness :
  neg (neg v0) = v0 /\ neg (minus v0 a0) = minus a0 v0.
Proof.
  destruct (neg_involutive (exact := Z_exact) v0 a0) as (Hn & _ & Hm).
  exact (conj Hn Hm).
Defined.

Lemma mul_scalar_distributes_witness :
  mul_scalar Z.of_nat (plus v0 a0) 3%nat =
    plus (mul_scalar Z.of_nat v0 3%nat) (mul_scalar Z.of_nat a0 3%nat).
Proof.
  exact (proj1 (mul_scalar_distributes (exact := Z_exact)
                  Z.of_nat v0 a0 3%nat)).
Defined.

Lemma mul_scalar_units_witness :
  mul_scalar (fun t => t) v0 1 = v0 /\
  mul_scalar (fun t => t) v0 (-1) = neg v0.
Proof.
  destruct (mul_scalar_units (exact := Z_exact) v0) as (H1 & _ & Hm).
  exact (conj H1 Hm).
Defined.

Lemma mul_scalar_twice_witness :
  mul_scalar Z.of_N (mul_scalar Z.of_nat v0 3%nat) 2%N =
    mul_scalar Z.of_nat (mul_scalar Z.of_N v0 2%N) 3%nat.
Proof.
  exact (proj1 (proj2 (mul_scalar_twice (exact := Z_exact)
                         Z.of_nat Z.of_N v0 3%nat 2%N 0 0))).
Defined.

Lemma eqb_neb_decide_witness :
  (eqb v0 v0' = true <-> v0 = v0') /\ (neb v0 a0 = true <-> v0 <> a0).
Proof.
  exact (conj (proj1 (eqb_neb_decide (exact := Z_exact) v0 v0'))
              (proj2 (eqb_neb_decide (exact := Z_exact) v0 a0))).
Defined.

Lemma eqb_trans_witness : eqb v0 (plus v0' MotionVec_Zero) = true.
Proof.
  apply (eqb_trans (exact := Z_exact) v0 v0' (plus v0' MotionVec_Zero));
    reflexivity.
Defined.

Lemma cross_additive_witness :
  cross (plus a0 b0) v0 = plus (cross a0 v0) (cross b0 v0).
Proof. exact (proj1 (cross_additive (exact := Z_exact) a0 b0 v0)). Defined.

Lemma cross_homogeneous_witness :
  cross (mul_scalar Z.of_nat a0 3%nat) v0 =
    mul_scalar Z.of_nat (cross a0 v0) 3%nat.
Proof.
  exact (proj1 (cross_homogeneous (exact := Z_exact) Z.of_nat a0 v0 3%nat)).
Defined.

Lemma dot_linear_witness : dot (plus a0 v0) f0 = dot a0 f0 + dot v0 f0.
Proof.
  exact (proj1 (dot_linear (exact := Z_exact) Z.of_nat a0 v0 f0 0%nat)).
Defined.

Lemma cross_jacobi_witness :
  plus (plus (cross a0 (cross b0 v0)) (cross b0 (cross v0 a0)))
       (cross v0 (cross a0 b0)) = MotionVec_Zero.
Proof. exact (cross_jacobi (exact := Z_exact) a0 b0 v0). Defined.

End MoreOnIntegers.
